(** * MoleQule: the stability classifier and the shelf-life calculator

    A shallow embedding of [src/stability.py] ([predict_stability]) and of
    the calculation block of [src/app.py] ([calculate_shelf_life] and the
    lines that call it), with the properties of the kinetics/stability core
    stated against that embedding.

    Numeric model.
    - [predict_stability] only compares its frequencies with [0]; Python
      floats are IEEE-754 binary64, so the classifier is embedded over
      Rocq's primitive binary64 floats, NaN and the infinities included.
    - [calculate_shelf_life] is embedded twice.
      [App64.calculate_shelf_life64] is the program: binary64, operation by
      operation, with [np.exp] a parameter of which only the behaviour at
      the ends of its range is assumed.  [App.calculate_shelf_life] is the
      same expression in exact real arithmetic ([R]): no rounding, overflow
      or underflow, and zero carries no sign.  What is proved of the latter
      is proved of the formula; it is stated of the program only for the
      table's inputs and for the raising behaviour, where the two agree.
    - The two ways the source reacts to a zero divisor are kept apart in
      both: Python's [float / float] raises [ZeroDivisionError], numpy's
      [np.float64] division returns an infinity or NaN. *)

From Stdlib Require Import Reals Lra Lia List String Bool ZArith.
From Stdlib Require Import Floats Permutation.
Import ListNotations.

(** ** Outcomes of a Python call *)

(** The only exception the modelled code can raise. *)
Inductive exn : Type :=
| ZeroDivisionError.

Inductive outcome (A : Type) : Type :=
| Returned (a : A)
| Raised (e : exn).

Arguments Returned {A} a.
Arguments Raised {A} e.

Definition bind {A B : Type} (m : outcome A) (k : A -> outcome B) : outcome B :=
  match m with
  | Returned a => k a
  | Raised e => Raised e
  end.

Notation "x <- m ;; k" := (bind m (fun x => k))
  (at level 61, m at next level, right associativity).

(** A call fails when it raises, whatever the exception. *)
Definition fails {A : Type} (o : outcome A) : Prop :=
  exists e, o = Raised e.

Definition returns {A : Type} (o : outcome A) : Prop :=
  exists a, o = Returned a.

(** ** src/stability.py *)

Module Stability.

Local Open Scope string_scope.

Definition Unstable : string := "Unstable (imaginary frequencies)".
Definition Stable : string := "Thermodynamically Stable".

(** Python's [any] over a generator: stops at the first true element. *)
Fixpoint any {A : Type} (p : A -> bool) (xs : list A) : bool :=
  match xs with
  | [] => false
  | x :: rest => if p x then true else any p rest
  end.

(** [predict_stability(ground_energy, vibrational_freqs)]. *)
Definition predict_stability (ground_energy : float)
    (vibrational_freqs : list float) : outcome string :=
  if any (fun freq => (freq <? 0)%float) vibrational_freqs
  then Returned Unstable
  else Returned Stable.

(** A binary64 value is finite when it is neither NaN nor an infinity. *)
Definition is_finite (x : float) : bool :=
  match Prim2SF x with
  | S754_zero _ | S754_finite _ _ _ => true
  | S754_infinity _ | S754_nan => false
  end.

(** Strictly negative: sign bit set and not a zero (so [-0.0] is not),
    NaN excluded. *)
Definition strictly_negative (x : float) : bool :=
  match Prim2SF x with
  | S754_finite true _ _ | S754_infinity true => true
  | _ => false
  end.

End Stability.

(** ** src/app.py, the calculation block *)

Module App.

Local Open Scope R_scope.

(** *** Constants *)

Definition R_gas : R := 8.314.          (* [R], J/(mol K) *)
Definition HARTREE_TO_KJ : R := 2625.5.
Definition DAY_TO_SECONDS : R := 86400.

(** *** Values of numpy's [np.float64]

    A finite value is a real number; division by zero yields the special
    values instead of raising. *)
Inductive float64 : Type :=
| Fin (r : R)
| PosInf
| NegInf
| NaN.

(** Python's [x / y] on two Python floats. *)
Definition py_truediv (x y : R) : outcome R :=
  if Req_dec_T y 0 then Raised ZeroDivisionError else Returned (x / y).

(** [x / y] when an operand is an [np.float64] holding a finite value. *)
Definition np_truediv (x y : R) : float64 :=
  if Req_dec_T y 0 then
    if Req_dec_T x 0 then NaN
    else if Rlt_dec 0 x then PosInf else NegInf
  else Fin (x / y).

(** [x * y] on [np.float64]. *)
Definition np_mul (x y : float64) : float64 :=
  match x, y with
  | Fin a, Fin b => Fin (a * b)
  | NaN, _ | _, NaN => NaN
  | Fin a, PosInf | PosInf, Fin a =>
      if Req_dec_T a 0 then NaN else if Rlt_dec 0 a then PosInf else NegInf
  | Fin a, NegInf | NegInf, Fin a =>
      if Req_dec_T a 0 then NaN else if Rlt_dec 0 a then NegInf else PosInf
  | PosInf, PosInf | NegInf, NegInf => PosInf
  | PosInf, NegInf | NegInf, PosInf => NegInf
  end.

(** *** [calculate_shelf_life(Ea, A, T, T_ref=298)]

    "Returns shelf life in days with reference adjustment". *)
Definition calculate_shelf_life (Ea A T T_ref : R) : outcome float64 :=
  x_ref <- py_truediv (- Ea * 1000) (R_gas * T_ref) ;;
  let k_ref := A * exp x_ref in
  x <- py_truediv (- Ea * 1000) (R_gas * T) ;;
  let k := A * exp x in
  Returned (np_mul (np_mul (np_truediv 0.105 k_ref) (np_truediv k_ref k))
                   (Fin (DAY_TO_SECONDS / 86400))).

(** The default of the last parameter. *)
Definition T_ref_default : R := 298.

(** *** The drug table and the lines that call the calculator *)

Record degradation : Type := {
  product : string;
  product_smiles : string;   (* the inner ["smiles"] *)
  Ea : R;                    (* kJ/mol *)
  A : R;                     (* 1/s *)
  E0 : R;
  E_TS : R;
  E_deg : R;
  t90_ref : R                (* years at 25 C *)
}.

Record drug_data : Type := {
  smiles : string;
  degradation_of : degradation   (* ["degradation"] *)
}.

(** The keys of [DRUG_DB]. *)
Inductive drug : Type :=
| Aspirin
| Cyclobutadiene
| Methane.

Definition drug_name (d : drug) : string :=
  match d with
  | Aspirin => "Aspirin"
  | Cyclobutadiene => "Cyclobutadiene (Unstable)"
  | Methane => "Methane (CH₄)"
  end.

Definition DRUG_DB (d : drug) : drug_data :=
  match d with
  | Aspirin =>
      {| smiles := "CC(=O)OC1=CC=CC=C1C(=O)O";
         degradation_of :=
           {| product := "Salicylic acid";
              product_smiles := "OC1=CC=CC=C1C(=O)O";
              Ea := 85.2; A := 1.15e12;
              E0 := -1027.3; E_TS := -942.1; E_deg := -950.8;
              t90_ref := 3.2 |} |}
  | Cyclobutadiene =>
      {| smiles := "C1=CC=C1";
         degradation_of :=
           {| product := "2 Acetylene";
              product_smiles := "C#CC#C";
              Ea := 25.0; A := 1.0e13;
              E0 := -153.0; E_TS := -128.0; E_deg := -310.0;
              t90_ref := 0.003 |} |}
  | Methane =>
      {| smiles := "C";
         degradation_of :=
           {| product := "CH₃· + H·";
              product_smiles := "[CH3]";
              Ea := 435.0; A := 1.0e16;
              E0 := -40.5; E_TS := 394.5; E_deg := 0.0;
              t90_ref := 1000 |} |}
  end.

(** [t90_ref_days = drug_data["degradation"]["t90_ref"] * 365]; the script
    computes it and never reads it again. *)
Definition t90_ref_days (d : drug) : R :=
  t90_ref (degradation_of (DRUG_DB d)) * 365.

(** What the script binds to [t90_days] for the chosen drug and the
    slider's temperature: [None] for methane, for which the calculator is
    not called. *)
Definition t90_days (drug_choice : drug) (temperature : R)
    : option (outcome float64) :=
  let deg := degradation_of (DRUG_DB drug_choice) in
  match drug_choice with
  | Methane => None
  | _ => Some (calculate_shelf_life (Ea deg) (A deg) temperature T_ref_default)
  end.

(** The argument the source passes to [np.exp] for a temperature. *)
Definition exponent (Ea T : R) : R := - Ea * 1000 / (R_gas * T).

(** *** The formula of the specification, for comparison *)

(** Arrhenius rate at temperature [T], activation energy in kJ/mol. *)
Definition spec_rate (Ea A T : R) : R := A * exp (- (Ea * 1000) / (8.314 * T)).

(** [reference_shelf_life_days * (rate(T_ref) / rate(T))]. *)
Definition spec_shelf_life (Ea A ref_days T T_ref : R) : R :=
  ref_days * (spec_rate Ea A T_ref / spec_rate Ea A T).

(** *** Reading a result as a number of days *)

(** The call returned the finite number of days [d]. *)
Definition returns_days (o : outcome float64) (d : R) : Prop :=
  o = Returned (Fin d).

(** Both calls returned finite values, the first strictly below the second. *)
Definition days_lt (o1 o2 : outcome float64) : Prop :=
  exists d1 d2, returns_days o1 d1 /\ returns_days o2 d2 /\ d1 < d2.

(** *** The text shown for the shelf life *)

(** [x < y] with [x] an [np.float64]: false on NaN. *)
Definition np_lt (x : float64) (y : R) : bool :=
  match x with
  | Fin a => if Rlt_dec a y then true else false
  | NegInf => true
  | PosInf | NaN => false
  end.

(** [x / y] with [x] an [np.float64]. *)
Definition np_div (x : float64) (y : R) : float64 :=
  match x with
  | Fin a => np_truediv a y
  | PosInf => if Rlt_dec y 0 then NegInf else PosInf
  | NegInf => if Rlt_dec y 0 then PosInf else NegInf
  | NaN => NaN
  end.

Section Display.

(** Python's [format(x, ".1f")], the conversion inside the f-strings. *)
Variable format_1f : float64 -> string.

(** The [if]/[elif] chain that turns [t90_days] into the text [t90]. *)
Definition format_t90 (t90_days : float64) : string :=
  if np_lt t90_days 1 then
    (format_1f (np_mul t90_days (Fin 24)) ++ " hours")%string
  else if np_lt t90_days 30 then
    (format_1f t90_days ++ " days")%string
  else if np_lt t90_days 365 then
    (format_1f (np_div t90_days 30) ++ " months")%string
  else
    (format_1f (np_div t90_days 365) ++ " years")%string.

(** The value bound to [t90] for the chosen drug and temperature. *)
Definition t90 (drug_choice : drug) (temperature : R) : outcome string :=
  let deg := degradation_of (DRUG_DB drug_choice) in
  if String.eqb (drug_name drug_choice) "Methane (CH₄)" then
    Returned ">1000 years"%string
  else
    t90_days <- calculate_shelf_life (Ea deg) (A deg) temperature T_ref_default ;;
    Returned (format_t90 t90_days).

End Display.

(** The unit a branch of [format_t90] writes, and its length in days as
    the branch converts it. *)
Inductive time_unit : Type :=
| Hours
| Days
| Months
| Years.

Definition unit_suffix (u : time_unit) : string :=
  match u with
  | Hours => " hours"
  | Days => " days"
  | Months => " months"
  | Years => " years"
  end.

Definition unit_days (u : time_unit) : R :=
  match u with
  | Hours => 1 / 24
  | Days => 1
  | Months => 30
  | Years => 365
  end.

Definition unit_rank (u : time_unit) : nat :=
  match u with
  | Hours => 0
  | Days => 1
  | Months => 2
  | Years => 3
  end.

(** The number and the unit [format_t90] formats, branch by branch. *)
Definition reading (t90_days : float64) : float64 * time_unit :=
  if np_lt t90_days 1 then (np_mul t90_days (Fin 24), Hours)
  else if np_lt t90_days 30 then (t90_days, Days)
  else if np_lt t90_days 365 then (np_div t90_days 30, Months)
  else (np_div t90_days 365, Years).

End App.

(** ** src/app.py, [calculate_shelf_life] in binary64

    The same function over IEEE-754 binary64, operation by operation, so
    that rounding, underflow and overflow are the program's.  [np.exp] is
    numpy's and is a parameter; what is assumed of it is what every
    binary64 exponential does at the ends of its range. *)

Module App64.

#[local] Set Warnings "-inexact-float".
Local Open Scope float_scope.

Definition R_gas64 : float := 8.314.
Definition DAY_TO_SECONDS64 : float := 86400.

(** Python's [x / y] on two Python floats: a zero divisor of either sign
    raises. *)
Definition py_truediv64 (x y : float) : outcome float :=
  if y =? 0 then Raised ZeroDivisionError else Returned (x / y).

Section WithExp.

(** [np.exp]. *)
Variable np_exp : float -> float.

(** [calculate_shelf_life(Ea, A, T, T_ref=298)]; the products and the
    quotients on [np.float64] are IEEE operations and never raise. *)
Definition calculate_shelf_life64 (Ea A T T_ref : float) : outcome float :=
  x_ref <- py_truediv64 (- Ea * 1000) (R_gas64 * T_ref) ;;
  let k_ref := A * np_exp x_ref in
  x <- py_truediv64 (- Ea * 1000) (R_gas64 * T) ;;
  let k := A * np_exp x in
  Returned ((0.105 / k_ref) * (k_ref / k) * (DAY_TO_SECONDS64 / 86400)).

End WithExp.

(** *** What is assumed of [np.exp] *)

(** Where the argument lies: so close to zero that the exponential rounds
    to one, so low that it rounds to zero, so high that it overflows, or in
    between.  NaN falls in the last class. *)
Inductive exp_region : Type :=
| Tiny
| Underflow
| Overflow
| Middle.

Definition region_of (x : float) : exp_region :=
  if abs x <=? 0x1p-60 then Tiny
  else if x <=? -746 then Underflow
  else if 710 <=? x then Overflow
  else Middle.

(** The sign bit is [s], or the value is NaN. *)
Definition sf_sign (s : bool) (x : spec_float) : bool :=
  match x with
  | S754_nan => true
  | S754_zero b | S754_infinity b | S754_finite b _ _ => Bool.eqb b s
  end.

(** The sign bit is clear, or the value is NaN. *)
Definition nonneg_or_nan (x : float) : bool := sf_sign false (Prim2SF x).

Record exp_spec (np_exp : float -> float) : Prop := {
  exp_tiny : forall x, region_of x = Tiny -> np_exp x = 1;
  exp_underflow : forall x, region_of x = Underflow -> np_exp x = 0;
  exp_overflow : forall x, region_of x = Overflow -> np_exp x = infinity;
  exp_nonneg : forall x, nonneg_or_nan (np_exp x) = true
}.

(** One exponential that meets [exp_spec], to instantiate the parameter:
    the fixed values at the ends and, in between, a Taylor polynomial at
    [x / 2048] squared eleven times. *)
Fixpoint square_n (n : nat) (p : float) : float :=
  match n with
  | O => p
  | S m => let q := square_n m p in q * q
  end.

Definition exp_sample (x : float) : float :=
  match region_of x with
  | Tiny => 1
  | Underflow => 0
  | Overflow => infinity
  | Middle =>
      let y := x / 2048 in
      square_n 11
        (1 + y * (1 + y / 2 * (1 + y / 3 * (1 + y / 4 * (1 + y / 5 *
          (1 + y / 6 * (1 + y / 7 * (1 + y / 8 * (1 + y / 9 *
            (1 + y / 10))))))))))
  end.

(** [a < b] on two returned values; false when a call raised. *)
Definition days_lt64 (o1 o2 : outcome float) : bool :=
  match o1, o2 with
  | Returned a, Returned b => a <? b
  | _, _ => false
  end.

(** A finite, strictly positive binary64 value. *)
Definition finite_positive (x : float) : bool :=
  match Prim2SF x with
  | S754_finite false _ _ => true
  | _ => false
  end.

End App64.

(** ** Properties of the stability classifier *)

Module StabilityProps.
Import Stability.

Lemma any_true_iff {A : Type} (p : A -> bool) (xs : list A) :
  any p xs = true <-> Exists (fun x => p x = true) xs.
Proof.
  induction xs as [| x rest IH]; simpl.
  - split; [discriminate | intros H; inversion H].
  - destruct (p x) eqn:Hx.
    + split; [intros _; now constructor | reflexivity].
    + rewrite IH. split.
      * intros H. now apply Exists_cons_tl.
      * intros H. inversion H; subst; [congruence | assumption].
Qed.

(** The comparison the source performs is the sign test on the IEEE value. *)
Lemma ltb_zero_strictly_negative (x : float) :
  (x <? 0)%float = strictly_negative x.
Proof.
  rewrite ltb_spec. unfold strictly_negative.
  change (Prim2SF 0%float) with (S754_zero false).
  destruct (Prim2SF x) as [s | s | | s m e]; try destruct s; reflexivity.
Qed.

Lemma predict_stability_cases (E : float) (fs : list float) :
  predict_stability E fs
  = if any strictly_negative fs then Returned Unstable else Returned Stable.
Proof.
  unfold predict_stability.
  replace (any (fun freq => (freq <? 0)%float) fs) with (any strictly_negative fs);
    [reflexivity |].
  induction fs as [| f rest IH]; simpl; [reflexivity |].
  now rewrite ltb_zero_strictly_negative, IH.
Qed.

Lemma predict_stability_unstable_iff (E : float) (fs : list float) :
  predict_stability E fs = Returned Unstable
  <-> Exists (fun f => strictly_negative f = true) fs.
Proof.
  rewrite predict_stability_cases, <- any_true_iff.
  destruct (any strictly_negative fs); split; try reflexivity; discriminate.
Qed.

Lemma predict_stability_stable_iff (E : float) (fs : list float) :
  predict_stability E fs = Returned Stable
  <-> ~ Exists (fun f => strictly_negative f = true) fs.
Proof.
  rewrite <- any_true_iff, predict_stability_cases.
  destruct (any strictly_negative fs); split.
  - discriminate.
  - intros N. now elim N.
  - intros _. discriminate.
  - reflexivity.
Qed.

(** C3: for every ground-state energy and every sequence of finite
    frequencies, the verdict is Unstable exactly when some frequency is
    strictly negative, and Stable otherwise; the empty sequence is Stable. *)
Theorem predict_stability_verdict (E : float) (fs : list float) :
  Forall (fun f => is_finite f = true) fs ->
  (predict_stability E fs = Returned Unstable
   <-> Exists (fun f => strictly_negative f = true) fs)
  /\ (predict_stability E fs = Returned Stable
      <-> ~ Exists (fun f => strictly_negative f = true) fs)
  /\ predict_stability E [] = Returned Stable.
Proof.
  intros _. split; [| split].
  - apply predict_stability_unstable_iff.
  - apply predict_stability_stable_iff.
  - reflexivity.
Qed.

Lemma predict_stability_verdict_witness :
  (predict_stability (-76.0)%float [(-50.0)%float; 100.0%float; 200.0%float]
   = Returned Unstable
   <-> Exists (fun f => strictly_negative f = true)
              [(-50.0)%float; 100.0%float; 200.0%float])
  /\ (predict_stability (-76.0)%float [(-50.0)%float; 100.0%float; 200.0%float]
      = Returned Stable
      <-> ~ Exists (fun f => strictly_negative f = true)
                   [(-50.0)%float; 100.0%float; 200.0%float])
  /\ predict_stability (-76.0)%float [] = Returned Stable.
Proof.
  apply predict_stability_verdict.
  repeat constructor.
Defined.

(** The two examples of the specification. *)
Example predict_stability_imaginary_mode (E : float) :
  predict_stability E [(-50.0)%float; 100.0%float; 200.0%float]
  = Returned Unstable.
Proof. reflexivity. Qed.

Example predict_stability_real_modes (E : float) :
  predict_stability E [50.0%float; 100.0%float; 200.0%float]
  = Returned Stable.
Proof. reflexivity. Qed.

(** C8: the verdict does not depend on the ground-state energy. *)
Theorem predict_stability_ignores_energy (E1 E2 : float) (fs : list float) :
  predict_stability E1 fs = predict_stability E2 fs.
Proof. reflexivity. Qed.

(** C5, as the code has it: the classifier checks nothing and never fails.
    On every sequence, NaN and infinite frequencies included, it returns a
    verdict; a NaN or [+inf] frequency does not count as negative, [-inf]
    does. *)
Theorem predict_stability_never_fails (E : float) (fs : list float) :
  returns (predict_stability E fs)
  /\ ~ fails (predict_stability E fs)
  /\ (predict_stability E fs = Returned Unstable
      <-> Exists (fun f => strictly_negative f = true) fs)
  /\ strictly_negative nan = false
  /\ strictly_negative infinity = false
  /\ strictly_negative neg_infinity = true.
Proof.
  assert (Hr : returns (predict_stability E fs)).
  { rewrite predict_stability_cases.
    destruct (any strictly_negative fs); eexists; reflexivity. }
  split; [exact Hr |]. split.
  - destruct Hr as [v Hv]. intros [e He]. congruence.
  - split; [apply predict_stability_unstable_iff |].
    repeat split; reflexivity.
Qed.

(** C5 as stated fails: sequences holding a NaN or an infinite frequency
    are classified, not rejected. *)
Lemma predict_stability_nan_classified :
  predict_stability 0%float [nan] = Returned Stable
  /\ predict_stability 0%float [100.0%float; infinity] = Returned Stable
  /\ predict_stability 0%float [neg_infinity] = Returned Unstable.
Proof. repeat split; reflexivity. Qed.

End StabilityProps.

(** ** Properties of the shelf-life calculator *)

Module AppProps.
Import App.
Local Open Scope R_scope.

(** *** The two divisions *)

Lemma py_truediv_nonzero (x y : R) :
  y <> 0 -> py_truediv x y = Returned (x / y).
Proof.
  intros Hy. unfold py_truediv.
  destruct (Req_dec_T y 0) as [E | _]; [contradiction | reflexivity].
Qed.

Lemma py_truediv_zero (x : R) : py_truediv x 0 = Raised ZeroDivisionError.
Proof.
  unfold py_truediv.
  destruct (Req_dec_T 0 0) as [_ | N]; [reflexivity | now elim N].
Qed.

Lemma np_truediv_nonzero (x y : R) : y <> 0 -> np_truediv x y = Fin (x / y).
Proof.
  intros Hy. unfold np_truediv.
  destruct (Req_dec_T y 0) as [E | _]; [contradiction | reflexivity].
Qed.

Lemma gas_times_nonzero (T : R) : T <> 0 -> R_gas * T <> 0.
Proof. unfold R_gas. intros HT H. apply HT. lra. Qed.

Lemma spec_rate_exponent (Ea A T : R) : spec_rate Ea A T = A * exp (exponent Ea T).
Proof.
  unfold spec_rate, exponent, R_gas. f_equal. f_equal. unfold Rdiv. lra.
Qed.

(** *** What the calculator returns

    With nonzero temperatures and a nonzero frequency factor every division
    is regular; the reference rate constant cancels and the day factor is
    one, so the value is [0.105 / k]. *)
Lemma calculate_shelf_life_value (Ea A T T_ref : R) :
  A <> 0 -> T <> 0 -> T_ref <> 0 ->
  calculate_shelf_life Ea A T T_ref
  = Returned (Fin (0.105 / (A * exp (exponent Ea T)))).
Proof.
  intros HA HT HTr. unfold calculate_shelf_life.
  rewrite (py_truediv_nonzero _ _ (gas_times_nonzero _ HTr)). simpl.
  rewrite (py_truediv_nonzero _ _ (gas_times_nonzero _ HT)). simpl.
  fold (exponent Ea T_ref). fold (exponent Ea T).
  assert (Hkr : A * exp (exponent Ea T_ref) <> 0).
  { apply Rmult_integral_contrapositive_currified; [exact HA | apply exp_neq_0]. }
  assert (Hk : A * exp (exponent Ea T) <> 0).
  { apply Rmult_integral_contrapositive_currified; [exact HA | apply exp_neq_0]. }
  rewrite (np_truediv_nonzero _ _ Hkr), (np_truediv_nonzero _ _ Hk). simpl.
  do 2 f_equal. unfold DAY_TO_SECONDS. field.
  repeat split; try assumption; apply exp_neq_0.
Qed.

(** A zero temperature makes Python's division raise. *)
Lemma calculate_shelf_life_zero_T_ref (Ea A T : R) :
  calculate_shelf_life Ea A T 0 = Raised ZeroDivisionError.
Proof.
  unfold calculate_shelf_life. rewrite Rmult_0_r, py_truediv_zero. reflexivity.
Qed.

Lemma calculate_shelf_life_zero_T (Ea A T_ref : R) :
  calculate_shelf_life Ea A 0 T_ref = Raised ZeroDivisionError.
Proof.
  unfold calculate_shelf_life, py_truediv at 1.
  destruct (Req_dec_T (R_gas * T_ref) 0); simpl; [reflexivity |].
  rewrite Rmult_0_r, py_truediv_zero. reflexivity.
Qed.

(** A zero frequency factor makes both rate constants zero: numpy yields
    [inf * nan]. *)
Lemma calculate_shelf_life_zero_A (Ea T T_ref : R) :
  T <> 0 -> T_ref <> 0 -> calculate_shelf_life Ea 0 T T_ref = Returned NaN.
Proof.
  intros HT HTr. unfold calculate_shelf_life.
  rewrite (py_truediv_nonzero _ _ (gas_times_nonzero _ HTr)). simpl.
  rewrite (py_truediv_nonzero _ _ (gas_times_nonzero _ HT)). simpl.
  rewrite !Rmult_0_l. unfold np_truediv.
  destruct (Req_dec_T 0 0) as [_ | N]; [| now elim N].
  destruct (Req_dec_T 0.105 0) as [E | _]; [lra |].
  destruct (Rlt_dec 0 0.105) as [_ | N]; [reflexivity | lra].
Qed.

(** The exponent grows with the temperature when the barrier is positive,
    and falls as the barrier grows when the temperature is positive. *)
Lemma exponent_increasing_T (Ea T1 T2 : R) :
  0 < Ea -> 0 < T1 -> T1 < T2 -> exponent Ea T1 < exponent Ea T2.
Proof.
  intros HEa H1 H12. unfold exponent, R_gas.
  assert (H2 : 0 < T2) by lra.
  apply Rmult_lt_reg_r with (r := 8.314 * T1 * (8.314 * T2)).
  - apply Rmult_lt_0_compat; lra.
  - replace (- Ea * 1000 / (8.314 * T1) * (8.314 * T1 * (8.314 * T2)))
      with (- Ea * 1000 * (8.314 * T2)) by (field; lra).
    replace (- Ea * 1000 / (8.314 * T2) * (8.314 * T1 * (8.314 * T2)))
      with (- Ea * 1000 * (8.314 * T1)) by (field; lra).
    nra.
Qed.

Lemma exponent_decreasing_Ea (Ea1 Ea2 T : R) :
  0 < T -> Ea1 < Ea2 -> exponent Ea2 T < exponent Ea1 T.
Proof.
  intros HT H12. unfold exponent, R_gas.
  apply Rmult_lt_compat_r.
  - apply Rinv_0_lt_compat. lra.
  - lra.
Qed.

(** [0.105 / (A * e)] falls as [e] grows, for a positive [A]. *)
Lemma t90_antitone (A e1 e2 : R) :
  0 < A -> 0 < e1 -> e1 < e2 -> 0.105 / (A * e2) < 0.105 / (A * e1).
Proof.
  intros HA H1 H12. unfold Rdiv.
  apply Rmult_lt_compat_l; [lra |].
  apply Rinv_lt_contravar.
  - apply Rmult_lt_0_compat; apply Rmult_lt_0_compat; lra.
  - apply Rmult_lt_compat_l; assumption.
Qed.

(** *** Independence of the reference temperature *)

(** C10: for a positive frequency factor, a positive target temperature and
    any two positive reference temperatures the calculator returns the same
    result: the reference rate constant cancels out of
    [(0.105 / k_ref) * (k_ref / k)]. *)
Theorem shelf_life_reference_independent (Ea A T T_ref1 T_ref2 : R) :
  0 < A -> 0 < T -> 0 < T_ref1 -> 0 < T_ref2 ->
  calculate_shelf_life Ea A T T_ref1 = calculate_shelf_life Ea A T T_ref2.
Proof.
  intros HA HT H1 H2.
  rewrite !calculate_shelf_life_value by lra. reflexivity.
Qed.

Lemma shelf_life_reference_independent_witness :
  calculate_shelf_life 85.2 1.15e12 310 298
  = calculate_shelf_life 85.2 1.15e12 310 273.
Proof. apply shelf_life_reference_independent; lra. Defined.

(** *** Positivity *)

(** In exact real arithmetic the value for positive inputs is finite and
    strictly positive. *)
Lemma shelf_life_positive_exact (Ea A T T_ref : R) :
  0 < Ea -> 0 < A -> 0 < T -> 0 < T_ref ->
  exists d, returns_days (calculate_shelf_life Ea A T T_ref) d /\ 0 < d.
Proof.
  intros _ HA HT HTr.
  exists (0.105 / (A * exp (exponent Ea T))). split.
  - unfold returns_days. apply calculate_shelf_life_value; lra.
  - apply Rdiv_lt_0_compat; [lra |].
    apply Rmult_lt_0_compat; [assumption | apply exp_pos].
Qed.

(** *** Monotonicity *)

(** In exact real arithmetic the value falls strictly as the temperature
    rises, for a positive barrier. *)
Lemma shelf_life_decreasing_exact (Ea A T_ref T1 T2 : R) :
  0 < Ea -> 0 < A -> 0 < T_ref -> 0 < T1 -> T1 < T2 ->
  days_lt (calculate_shelf_life Ea A T2 T_ref)
          (calculate_shelf_life Ea A T1 T_ref).
Proof.
  intros HEa HA HTr H1 H12.
  exists (0.105 / (A * exp (exponent Ea T2))),
         (0.105 / (A * exp (exponent Ea T1))).
  repeat split.
  - apply calculate_shelf_life_value; lra.
  - apply calculate_shelf_life_value; lra.
  - apply t90_antitone; [assumption | apply exp_pos |].
    apply exp_increasing, exponent_increasing_T; assumption.
Qed.

(** In exact real arithmetic the value grows strictly with the barrier. *)
Lemma shelf_life_increasing_exact (Ea1 Ea2 A T T_ref : R) :
  0 < T -> 0 < A -> 0 < T_ref -> Ea1 < Ea2 ->
  days_lt (calculate_shelf_life Ea1 A T T_ref)
          (calculate_shelf_life Ea2 A T T_ref).
Proof.
  intros HT HA HTr H12.
  exists (0.105 / (A * exp (exponent Ea1 T))),
         (0.105 / (A * exp (exponent Ea2 T))).
  repeat split.
  - apply calculate_shelf_life_value; lra.
  - apply calculate_shelf_life_value; lra.
  - apply t90_antitone; [assumption | apply exp_pos |].
    apply exp_increasing, exponent_decreasing_Ea; assumption.
Qed.

(** *** Error behaviour *)

Lemma calculate_shelf_life_returns (Ea A T T_ref : R) :
  T <> 0 -> T_ref <> 0 -> returns (calculate_shelf_life Ea A T T_ref).
Proof.
  intros HT HTr. destruct (Req_dec_T A 0) as [-> | HA].
  - exists NaN. now apply calculate_shelf_life_zero_A.
  - eexists. now apply calculate_shelf_life_value.
Qed.

(** C4, as the code has it: the calculator checks none of its parameters.
    It raises exactly when the target or the reference temperature is zero,
    and then Python's [ZeroDivisionError]; on every other input, negative
    temperatures and non-positive frequency factors included, it returns a
    value. *)
Theorem calculate_shelf_life_raises_iff (Ea A T T_ref : R) :
  (calculate_shelf_life Ea A T T_ref = Raised ZeroDivisionError
   <-> T = 0 \/ T_ref = 0)
  /\ (returns (calculate_shelf_life Ea A T T_ref) <-> T <> 0 /\ T_ref <> 0).
Proof.
  destruct (Req_dec_T T 0) as [-> | HT].
  - rewrite calculate_shelf_life_zero_T. split; split.
    + intros _. now left.
    + reflexivity.
    + intros [v Hv]. discriminate Hv.
    + intros [N _]. now elim N.
  - destruct (Req_dec_T T_ref 0) as [-> | HTr].
    + rewrite calculate_shelf_life_zero_T_ref. split; split.
      * intros _. now right.
      * reflexivity.
      * intros [v Hv]. discriminate Hv.
      * intros [_ N]. now elim N.
    + destruct (calculate_shelf_life_returns Ea A T T_ref HT HTr) as [v Hv].
      rewrite Hv. split; split.
      * discriminate.
      * intros [E | E]; contradiction.
      * intros _. now split.
      * intros _. now exists v.
Qed.

(** C4 as stated fails: a negative temperature, a negative frequency factor
    and a zero frequency factor each come back with a value. *)
Lemma shelf_life_invalid_parameters_return :
  calculate_shelf_life 0 1 (-298) 298 = Returned (Fin 0.105)
  /\ calculate_shelf_life 0 (-1) 298 298 = Returned (Fin (-0.105))
  /\ calculate_shelf_life 0 0 298 298 = Returned NaN.
Proof.
  assert (E : forall T, T <> 0 -> exponent 0 T = 0).
  { intros T HT. unfold exponent, R_gas. field. lra. }
  repeat split.
  - rewrite calculate_shelf_life_value by lra.
    rewrite E, exp_0 by lra. do 2 f_equal. lra.
  - rewrite calculate_shelf_life_value by lra.
    rewrite E, exp_0 by lra. do 2 f_equal. lra.
  - apply calculate_shelf_life_zero_A; lra.
Qed.

(** *** Bounds on the exponential, for the table's entries *)

Lemma exp_INR_mult (n : nat) (x : R) : exp (INR n * x) = exp x ^ n.
Proof.
  induction n as [| n IH].
  - simpl. rewrite Rmult_0_l. apply exp_0.
  - rewrite S_INR, Rmult_plus_distr_r, Rmult_1_l, exp_plus, IH. simpl. ring.
Qed.

Lemma exp_1_le : exp 1 <= 2.8.
Proof.
  assert (H : 19 / 20 < exp (- (1 / 20))).
  { pose proof (exp_ineq1 (- (1 / 20))) as H. lra. }
  rewrite exp_Ropp in H.
  assert (Hp : 0 < exp (1 / 20)) by apply exp_pos.
  assert (Hu : exp (1 / 20) <= 20 / 19).
  { apply Rmult_lt_compat_r with (r := exp (1 / 20)) in H; [| exact Hp].
    rewrite Rinv_l in H by lra. lra. }
  replace 1 with (INR 20 * (1 / 20)) at 1 by (simpl; lra).
  rewrite exp_INR_mult.
  apply Rle_trans with ((20 / 19) ^ 20); [| lra].
  apply pow_incr. lra.
Qed.

(** [exp x <= b ^ n] whenever [exp 1 <= b] and [x <= n]. *)
Lemma exp_le_pow (b x : R) (n : nat) :
  exp 1 <= b -> x <= INR n -> exp x <= b ^ n.
Proof.
  intros Hb Hx.
  apply Rle_trans with (exp (INR n)).
  - destruct Hx as [Hx | ->]; [left; now apply exp_increasing | right; reflexivity].
  - replace (INR n) with (INR n * 1) by ring.
    rewrite exp_INR_mult. apply pow_incr. split; [left; apply exp_pos | exact Hb].
Qed.

(** An upper bound on [0.105 / (A * exp (- x))] from one on [exp x]. *)
Lemma t90_upper (A x u : R) :
  0 < A -> exp x <= u -> 0.105 / (A * exp (- x)) <= 0.105 * u / A.
Proof.
  intros HA Hu. rewrite exp_Ropp.
  assert (Hp : 0 < exp x) by apply exp_pos.
  replace (0.105 / (A * / exp x)) with (0.105 * exp x / A) by (field; lra).
  unfold Rdiv. apply Rmult_le_compat_r; [left; apply Rinv_0_lt_compat; lra | lra].
Qed.

(** *** The calculator against the reference-scaled formula *)

(** The formula of the specification, with the rates written out. *)
Lemma spec_shelf_life_exponents (Ea A ref_days T T_ref : R) :
  A <> 0 ->
  spec_shelf_life Ea A ref_days T T_ref
  = ref_days * exp (exponent Ea T_ref - exponent Ea T).
Proof.
  intros HA. unfold spec_shelf_life. rewrite !spec_rate_exponent.
  unfold Rminus. rewrite exp_plus, exp_Ropp. field.
  split; [apply exp_neq_0 | exact HA].
Qed.

(** The value returned is the reference-scaled one only for the one
    reference shelf life [0.105 / rate(T_ref)]; the table's [t90_ref] plays
    no part. *)
Lemma calculate_shelf_life_meets_spec_iff (Ea A ref_days T T_ref : R) :
  0 < A -> T <> 0 -> T_ref <> 0 ->
  (returns_days (calculate_shelf_life Ea A T T_ref)
                (spec_shelf_life Ea A ref_days T T_ref)
   <-> ref_days = 0.105 / spec_rate Ea A T_ref).
Proof.
  intros HA HT HTr. unfold returns_days.
  rewrite calculate_shelf_life_value by lra.
  rewrite spec_shelf_life_exponents by lra. rewrite spec_rate_exponent.
  unfold Rminus. rewrite exp_plus, exp_Ropp.
  pose proof (exp_pos (exponent Ea T)) as Hp.
  pose proof (exp_pos (exponent Ea T_ref)) as Hpr.
  split.
  - intros H. injection H as H.
    apply Rmult_eq_reg_r with (r := exp (exponent Ea T_ref) * / exp (exponent Ea T)).
    + rewrite <- H. field. lra.
    + apply Rmult_integral_contrapositive_currified; [lra |].
      apply Rinv_neq_0_compat. lra.
  - intros ->. do 2 f_equal. field. lra.
Qed.

(** C1 at the spec's own example, the table's first entry at the default
    temperature: the call [calculate_shelf_life(85.2, 1.15e12, 298)] returns
    fewer than 500 days, while the reference shelf life of the entry is
    [3.2 * 365 = 1168] days. *)
Theorem aspirin_at_reference_temperature :
  t90_ref_days Aspirin = 1168
  /\ exists d, t90_days Aspirin 298 = Some (Returned (Fin d)) /\ d < 500.
Proof.
  split; [unfold t90_ref_days; simpl; lra |].
  exists (0.105 / (1.15e12 * exp (exponent 85.2 298))). split.
  - unfold t90_days, T_ref_default. simpl. f_equal.
    apply calculate_shelf_life_value; lra.
  - set (x := 85.2 * 1000 / (8.314 * 298)).
    replace (exponent 85.2 298) with (- x)
      by (unfold x, exponent, R_gas; field; lra).
    assert (Hx : exp x <= 2.8 ^ 35).
    { apply exp_le_pow; [apply exp_1_le |]. unfold x. simpl. lra. }
    pose proof (t90_upper 1.15e12 x (2.8 ^ 35) ltac:(lra) Hx) as H.
    lra.
Qed.

(** C2 at the table's second entry and 323 K: the call
    [calculate_shelf_life(25.0, 1.0e13, 323)] returns less than [1e-9] days,
    while [reference_shelf_life_days * (rate(T_ref) / rate(T))] with the
    entry's reference shelf life of [0.003 * 365] days exceeds [0.2] days. *)
Theorem cyclobutadiene_at_323K :
  (exists d, t90_days Cyclobutadiene 323 = Some (Returned (Fin d)) /\ d < 1e-9)
  /\ 0.2 < spec_shelf_life 25.0 1.0e13 (t90_ref_days Cyclobutadiene) 323 298.
Proof.
  split.
  - exists (0.105 / (1.0e13 * exp (exponent 25.0 323))). split.
    + unfold t90_days, T_ref_default. simpl. f_equal.
      apply calculate_shelf_life_value; lra.
    + set (x := 25.0 * 1000 / (8.314 * 323)).
      replace (exponent 25.0 323) with (- x)
        by (unfold x, exponent, R_gas; field; lra).
      assert (Hx : exp x <= 3 ^ 10).
      { apply exp_le_pow; [apply exp_le_3 |]. unfold x. simpl. lra. }
      pose proof (t90_upper 1.0e13 x (3 ^ 10) ltac:(lra) Hx) as H.
      lra.
  - rewrite spec_shelf_life_exponents by lra.
    pose proof (exp_ineq1_le (exponent 25.0 298 - exponent 25.0 323)) as H.
    assert (Hd : - 0.79 < exponent 25.0 298 - exponent 25.0 323).
    { unfold exponent, R_gas. lra. }
    unfold t90_ref_days. simpl. nra.
Qed.

End AppProps.

(** ** Further laws of the stability classifier *)

Module StabilityLaws.
Import Stability StabilityProps.

Lemma any_app {A : Type} (p : A -> bool) (xs ys : list A) :
  any p (xs ++ ys) = any p xs || any p ys.
Proof.
  induction xs as [| x rest IH]; simpl; [reflexivity |].
  destruct (p x); [reflexivity | exact IH].
Qed.

Lemma any_filter {A : Type} (p : A -> bool) (xs : list A) :
  any p (filter p xs) = any p xs.
Proof.
  induction xs as [| x rest IH]; simpl; [reflexivity |].
  destruct (p x) eqn:Hx; simpl; [now rewrite Hx | exact IH].
Qed.

Lemma any_permutation {A : Type} (p : A -> bool) (xs ys : list A) :
  Permutation xs ys -> any p xs = any p ys.
Proof.
  induction 1 as [| x l l' _ IH | x y l | l l' l'' _ IH1 _ IH2]; simpl.
  - reflexivity.
  - now rewrite IH.
  - destruct (p x), (p y); reflexivity.
  - now rewrite IH1.
Qed.

(** X1: the verdict does not depend on the order of the frequencies. *)
Theorem predict_stability_permutation (E : float) (fs gs : list float) :
  Permutation fs gs -> predict_stability E fs = predict_stability E gs.
Proof.
  intros H. unfold predict_stability.
  now rewrite (any_permutation _ _ _ H).
Qed.

Lemma predict_stability_permutation_witness :
  predict_stability 0%float [100.0%float; (-50.0)%float; 200.0%float]
  = predict_stability 0%float [(-50.0)%float; 200.0%float; 100.0%float].
Proof.
  apply predict_stability_permutation.
  apply perm_trans with [(-50.0)%float; 100.0%float; 200.0%float].
  - apply perm_swap.
  - apply perm_skip, perm_swap.
Defined.

(** X2: joining two frequency lists is Unstable exactly when one of the two
    lists is; in particular more frequencies never turn an Unstable verdict
    into a Stable one. *)
Theorem predict_stability_app (E : float) (fs gs : list float) :
  predict_stability E (fs ++ gs) = Returned Unstable
  <-> predict_stability E fs = Returned Unstable
      \/ predict_stability E gs = Returned Unstable.
Proof.
  unfold predict_stability. rewrite any_app.
  destruct (any _ fs), (any _ gs); simpl; split;
    try (intros [H | H]); try discriminate; auto.
Qed.

(** X3: only the strictly negative frequencies matter: dropping every
    other entry (positive values, zeros of either sign, [+inf], NaN) leaves
    the verdict unchanged, and a list without a strictly negative entry is
    Stable. *)
Theorem predict_stability_filter_negative (E : float) (fs : list float) :
  predict_stability E fs = predict_stability E (filter strictly_negative fs)
  /\ (filter strictly_negative fs = [] -> predict_stability E fs = Returned Stable)
  /\ strictly_negative (-0.0)%float = false.
Proof.
  assert (H : predict_stability E fs
              = predict_stability E (filter strictly_negative fs)).
  { rewrite !predict_stability_cases. now rewrite any_filter. }
  split; [exact H |]. split; [| reflexivity].
  intros Hnil. rewrite H, Hnil. reflexivity.
Qed.

(** X4: the verdict is always one of the two long texts; it is never the
    bare word "Stable" or "Unstable" that the docstring announces. *)
Theorem predict_stability_texts (E : float) (fs : list float) :
  (predict_stability E fs = Returned "Unstable (imaginary frequencies)"%string
   \/ predict_stability E fs = Returned "Thermodynamically Stable"%string)
  /\ predict_stability E fs <> Returned "Stable"%string
  /\ predict_stability E fs <> Returned "Unstable"%string.
Proof.
  rewrite predict_stability_cases.
  destruct (any strictly_negative fs); (split; [| split]);
    try (left; reflexivity); try (right; reflexivity); discriminate.
Qed.

End StabilityLaws.

(** ** Further laws of the shelf-life calculator *)

Module KineticsLaws.
Import App AppProps.
Local Open Scope R_scope.

Lemma exponent_zero_barrier (T : R) : T <> 0 -> exponent 0 T = 0.
Proof. intros HT. unfold exponent, R_gas. field. lra. Qed.

Lemma zero_barrier_value (A T T_ref : R) :
  A <> 0 -> T <> 0 -> T_ref <> 0 ->
  calculate_shelf_life 0 A T T_ref = Returned (Fin (0.105 / A)).
Proof.
  intros HA HT HTr. rewrite calculate_shelf_life_value by assumption.
  rewrite exponent_zero_barrier, exp_0 by assumption.
  do 2 f_equal. field. exact HA.
Qed.



End KineticsLaws.

(** ** The shelf-life text of the dashboard *)

Module DisplayProps.
Import App AppProps.
Local Open Scope R_scope.

Lemma np_lt_fin_true (a y : R) : a < y -> np_lt (Fin a) y = true.
Proof.
  intros H. unfold np_lt. destruct (Rlt_dec a y); [reflexivity | contradiction].
Qed.

Lemma np_lt_fin_false (a y : R) : y <= a -> np_lt (Fin a) y = false.
Proof.
  intros H. unfold np_lt. destruct (Rlt_dec a y); [lra | reflexivity].
Qed.

Lemma np_div_fin (a y : R) : y <> 0 -> np_div (Fin a) y = Fin (a / y).
Proof. intros Hy. simpl. now apply np_truediv_nonzero. Qed.

(** The four branches on a finite number of days. *)
Lemma reading_hours (d : R) : d < 1 -> reading (Fin d) = (Fin (d * 24), Hours).
Proof. intros H. unfold reading. now rewrite np_lt_fin_true. Qed.

Lemma reading_days (d : R) : 1 <= d -> d < 30 -> reading (Fin d) = (Fin d, Days).
Proof.
  intros H1 H2. unfold reading.
  rewrite np_lt_fin_false by assumption. now rewrite np_lt_fin_true.
Qed.

Lemma reading_months (d : R) :
  30 <= d -> d < 365 -> reading (Fin d) = (Fin (d / 30), Months).
Proof.
  intros H1 H2. unfold reading.
  rewrite !np_lt_fin_false by lra. rewrite np_lt_fin_true by assumption.
  rewrite np_div_fin by lra. reflexivity.
Qed.

Lemma reading_years (d : R) : 365 <= d -> reading (Fin d) = (Fin (d / 365), Years).
Proof.
  intros H. unfold reading.
  rewrite !np_lt_fin_false by lra. rewrite np_div_fin by lra. reflexivity.
Qed.

(** [format_t90] formats the number of [reading] and appends its unit. *)
Lemma format_t90_reading (format_1f : float64 -> string) (x : float64) :
  format_t90 format_1f x
  = (format_1f (fst (reading x)) ++ unit_suffix (snd (reading x)))%string.
Proof.
  unfold format_t90, reading.
  destruct (np_lt x 1); [reflexivity |].
  destruct (np_lt x 30); [reflexivity |].
  destruct (np_lt x 365); reflexivity.
Qed.

Ltac by_branch d :=
  destruct (Rlt_dec d 1);
  [ rewrite (reading_hours d) by lra
  | destruct (Rlt_dec d 30);
    [ rewrite (reading_days d) by lra
    | destruct (Rlt_dec d 365);
      [ rewrite (reading_months d) by lra
      | rewrite (reading_years d) by lra ] ] ].

(** X12: the text denotes the computed duration: for a finite number of
    days [d] the text is the formatted number [v] followed by a unit, and
    [v] times the unit's length (1/24, 1, 30 or 365 days) is [d]. *)
Theorem format_t90_denotes (format_1f : float64 -> string) (d : R) :
  exists v u,
    reading (Fin d) = (Fin v, u)
    /\ format_t90 format_1f (Fin d) = (format_1f (Fin v) ++ unit_suffix u)%string
    /\ v * unit_days u = d.
Proof.
  rewrite format_t90_reading.
  destruct (Rlt_dec d 1); [| destruct (Rlt_dec d 30); [| destruct (Rlt_dec d 365)]].
  - exists (d * 24), Hours. rewrite reading_hours by lra.
    repeat split. simpl. field.
  - exists d, Days. rewrite reading_days by lra.
    repeat split. simpl. ring.
  - exists (d / 30), Months. rewrite reading_months by lra.
    repeat split. simpl. field.
  - exists (d / 365), Years. rewrite reading_years by lra.
    repeat split. simpl. field.
Qed.

(** X13: a longer shelf life never gets a smaller unit. *)
Theorem reading_unit_monotone (d1 d2 : R) :
  d1 <= d2 ->
  (unit_rank (snd (reading (Fin d1))) <= unit_rank (snd (reading (Fin d2))))%nat.
Proof.
  intros H.
  by_branch d1; by_branch d2; simpl; try lia; lra.
Qed.

Lemma reading_unit_monotone_witness :
  (unit_rank (snd (reading (Fin 0.5))) <= unit_rank (snd (reading (Fin 400))))%nat.
Proof. apply reading_unit_monotone. lra. Defined.

(** X14: the range of the value handed to the formatter in each branch,
    before it is rounded to one decimal: below 24 with hours, from 1 up to
    30 with days, from 1 up to 365/30 with months (more than 12 months, as
    for 364 days), at least 1 with years. *)
Theorem reading_ranges (d : R) :
  match reading (Fin d) with
  | (Fin v, Hours) => v < 24
  | (Fin v, Days) => 1 <= v < 30
  | (Fin v, Months) => 1 <= v < 365 / 30
  | (Fin v, Years) => 1 <= v
  | _ => False
  end
  /\ reading (Fin 364) = (Fin (364 / 30), Months)
  /\ reading (Fin 365) = (Fin (365 / 365), Years).
Proof.
  split; [| split].
  - by_branch d; lra.
  - apply reading_months; lra.
  - apply reading_years; lra.
Qed.

(** X15: values that are not finite.  NaN fails every comparison and falls
    through to the last branch, so it is shown in years; so is [+inf];
    [-inf] is shown in hours. *)
Theorem format_t90_non_finite (format_1f : float64 -> string) :
  format_t90 format_1f NaN = (format_1f NaN ++ " years")%string
  /\ format_t90 format_1f PosInf = (format_1f PosInf ++ " years")%string
  /\ format_t90 format_1f NegInf = (format_1f NegInf ++ " hours")%string.
Proof.
  unfold format_t90. simpl. repeat split.
  - destruct (Rlt_dec 365 0) as [H | _]; [lra | reflexivity].
  - destruct (Req_dec_T 24 0) as [H | _]; [lra |].
    destruct (Rlt_dec 0 24) as [_ | H]; [reflexivity | lra].
Qed.

(** *** From the drug table to the text *)

Lemma t90_methane (format_1f : float64 -> string) (temperature : R) :
  t90 format_1f Methane temperature = Returned ">1000 years"%string.
Proof. reflexivity. Qed.

Lemma t90_other (format_1f : float64 -> string) (d : drug) (temperature : R) :
  d <> Methane ->
  t90 format_1f d temperature
  = (t90_days <- calculate_shelf_life (Ea (degradation_of (DRUG_DB d)))
                   (A (degradation_of (DRUG_DB d))) temperature T_ref_default ;;
     Returned (format_t90 format_1f t90_days)).
Proof. destruct d; intros H; [reflexivity | reflexivity | now elim H]. Qed.

(** The entries satisfy what the calculator needs, and in each of them the
    activation energy is the gap between [E_TS] and [E0]. *)
Lemma DRUG_DB_entries (d : drug) :
  let deg := degradation_of (DRUG_DB d) in
  0 < Ea deg /\ 0 < A deg /\ 0 < t90_ref deg /\ E_TS deg - E0 deg = Ea deg.
Proof. destruct d; simpl; lra. Qed.

Lemma t90_value (format_1f : float64 -> string) (d : drug) (T : R) :
  d <> Methane -> T <> 0 ->
  t90 format_1f d T
  = Returned (format_t90 format_1f
      (Fin (0.105 / (A (degradation_of (DRUG_DB d))
                     * exp (exponent (Ea (degradation_of (DRUG_DB d))) T))))).
Proof.
  intros Hd HT. rewrite t90_other by assumption.
  destruct (DRUG_DB_entries d) as [_ [HA _]].
  rewrite calculate_shelf_life_value; [reflexivity | lra | assumption |].
  unfold T_ref_default. lra.
Qed.

(** X16: the text for methane is the constant [">1000 years"] at every
    temperature, zero included, since the calculator is not called; for the
    other drugs computing the text raises exactly at temperature zero. *)
Theorem t90_raises_iff (format_1f : float64 -> string) (d : drug) (T : R) :
  t90 format_1f Methane T = Returned ">1000 years"%string
  /\ (t90 format_1f d T = Raised ZeroDivisionError <-> d <> Methane /\ T = 0).
Proof.
  split; [reflexivity |].
  destruct (Req_dec_T T 0) as [-> | HT].
  - destruct d.
    + rewrite t90_other by discriminate.
      rewrite calculate_shelf_life_zero_T. simpl.
      split; [intros _; split; [discriminate | reflexivity] | reflexivity].
    + rewrite t90_other by discriminate.
      rewrite calculate_shelf_life_zero_T. simpl.
      split; [intros _; split; [discriminate | reflexivity] | reflexivity].
    + rewrite t90_methane.
      split; [discriminate | intros [N _]; now elim N].
  - split; [| intros [_ E]; contradiction].
    destruct d.
    + rewrite t90_value by (assumption || discriminate). discriminate.
    + rewrite t90_value by (assumption || discriminate). discriminate.
    + rewrite t90_methane. discriminate.
Qed.

(** X17: over the slider's range, 273 K to 323 K, and for every drug of
    the table other than methane, the value handed to the formatter is a
    strictly positive finite number, the same whatever the formatter. *)
Theorem t90_positive (d : drug) (T : R) :
  d <> Methane -> 273 <= T -> T <= 323 ->
  exists v u,
    (forall format_1f : float64 -> string,
        t90 format_1f d T
        = Returned (format_1f (Fin v) ++ unit_suffix u)%string)
    /\ 0 < v.
Proof.
  intros Hd Hlo Hhi.
  destruct (DRUG_DB_entries d) as [_ [HA _]].
  set (x := 0.105 / (A (degradation_of (DRUG_DB d))
                     * exp (exponent (Ea (degradation_of (DRUG_DB d))) T))).
  assert (Hx : 0 < x).
  { unfold x. apply Rdiv_lt_0_compat; [lra |].
    apply Rmult_lt_0_compat; [exact HA | apply exp_pos]. }
  assert (Ht : forall format_1f, t90 format_1f d T
                                 = Returned (format_t90 format_1f (Fin x))).
  { intros f. apply t90_value; [assumption | lra]. }
  clearbody x.
  destruct (Rlt_dec x 1); [| destruct (Rlt_dec x 30); [| destruct (Rlt_dec x 365)]].
  - exists (x * 24), Hours. split.
    + intros f. rewrite Ht, format_t90_reading, reading_hours by lra. reflexivity.
    + lra.
  - exists x, Days. split.
    + intros f. rewrite Ht, format_t90_reading, reading_days by lra. reflexivity.
    + lra.
  - exists (x / 30), Months. split.
    + intros f. rewrite Ht, format_t90_reading, reading_months by lra. reflexivity.
    + lra.
  - exists (x / 365), Years. split.
    + intros f. rewrite Ht, format_t90_reading, reading_years by lra. reflexivity.
    + lra.
Qed.

Lemma t90_positive_witness :
  exists v u,
    (forall format_1f : float64 -> string,
        t90 format_1f Aspirin 298
        = Returned (format_1f (Fin v) ++ unit_suffix u)%string)
    /\ 0 < v.
Proof. apply t90_positive; [discriminate | lra | lra]. Defined.

(** X18: over the slider's range, 273 K to 323 K, the shelf life of
    cyclobutadiene is always written in hours, and the number is below
    [1e-6]. *)
Theorem t90_cyclobutadiene_hours (format_1f : float64 -> string) (T : R) :
  273 <= T -> T <= 323 ->
  exists h,
    t90 format_1f Cyclobutadiene T
    = Returned (format_1f (Fin h) ++ " hours")%string
    /\ 0 < h < 1e-6.
Proof.
  intros Hlo Hhi. rewrite t90_value by (discriminate || lra).
  simpl Ea. simpl A.
  set (x := 25.0 * 1000 / (8.314 * T)).
  replace (exponent 25.0 T) with (- x)
    by (unfold x, exponent, R_gas; field; lra).
  assert (Hx12 : x <= 12).
  { unfold x. apply Rmult_le_reg_r with (r := 8.314 * T); [lra |].
    replace (25.0 * 1000 / (8.314 * T) * (8.314 * T)) with (25.0 * 1000)
      by (field; lra).
    lra. }
  assert (Hx : exp x <= 3 ^ 12).
  { apply exp_le_pow; [apply exp_le_3 |]. simpl. lra. }
  pose proof (t90_upper 1.0e13 x (3 ^ 12) ltac:(lra) Hx) as Hu.
  assert (Hp : 0 < 0.105 / (1.0e13 * exp (- x))).
  { apply Rdiv_lt_0_compat; [lra |].
    apply Rmult_lt_0_compat; [lra | apply exp_pos]. }
  set (d := 0.105 / (1.0e13 * exp (- x))) in *. clearbody d.
  exists (d * 24). rewrite format_t90_reading, reading_hours by lra.
  split; [reflexivity | lra].
Qed.

Lemma t90_cyclobutadiene_hours_witness :
  exists h,
    t90 (fun _ => "?"%string) Cyclobutadiene 298
    = Returned ("?" ++ " hours")%string
    /\ 0 < h < 1e-6.
Proof. apply (t90_cyclobutadiene_hours (fun _ => "?"%string)); lra. Defined.

End DisplayProps.

(** ** The calculator in binary64 *)

Module Binary64Props.
Import App64.
#[local] Set Warnings "-inexact-float".
Local Open Scope float_scope.

(** *** Signs of products and quotients *)

Lemma binary_round_aux_sign (prec emax : Z) (s : bool) (m e : Z) (l : location) :
  sf_sign s (binary_round_aux prec emax s m e l) = true.
Proof.
  unfold binary_round_aux.
  destruct (shr_fexp prec emax m e l) as [r1 e1].
  destruct (shr_fexp _ _ _ _ _) as [r2 e2].
  destruct (shr_m r2); simpl; [apply eqb_reflx | | reflexivity].
  destruct (_ <=? _)%Z; simpl; apply eqb_reflx.
Qed.

Lemma mul_nonneg (a b : float) :
  nonneg_or_nan a = true -> nonneg_or_nan b = true ->
  nonneg_or_nan (a * b) = true.
Proof.
  unfold nonneg_or_nan. rewrite mul_spec.
  destruct (Prim2SF a) as [sa | sa | | sa ma ea],
           (Prim2SF b) as [sb | sb | | sb mb eb];
    simpl; intros Ha Hb; try reflexivity;
    apply eqb_prop in Ha; apply eqb_prop in Hb; subst; try reflexivity.
  apply binary_round_aux_sign.
Qed.

Lemma div_nonneg (a b : float) :
  nonneg_or_nan a = true -> nonneg_or_nan b = true ->
  nonneg_or_nan (a / b) = true.
Proof.
  unfold nonneg_or_nan. rewrite div_spec.
  destruct (Prim2SF a) as [sa | sa | | sa ma ea],
           (Prim2SF b) as [sb | sb | | sb mb eb];
    simpl; intros Ha Hb; try reflexivity;
    apply eqb_prop in Ha; apply eqb_prop in Hb; subst; try reflexivity.
  destruct (SFdiv_core_binary _ _ _ _ _ _) as [[mz ez] lz].
  apply binary_round_aux_sign.
Qed.

Lemma square_nonneg (a : float) : nonneg_or_nan (a * a) = true.
Proof.
  unfold nonneg_or_nan. rewrite mul_spec.
  destruct (Prim2SF a) as [sa | sa | | sa ma ea]; simpl;
    try reflexivity; try (destruct sa; reflexivity).
  replace (xorb sa sa) with false by (destruct sa; reflexivity).
  apply binary_round_aux_sign.
Qed.

(** A zero times anything is a zero or NaN. *)
Lemma zero_mul (z e : float) :
  z = 0 \/ z = -0 -> z * e = 0 \/ z * e = -0 \/ z * e = nan.
Proof.
  intros Hz. rewrite <- (SF2Prim_Prim2SF (z * e)), mul_spec.
  destruct Hz as [-> | ->].
  - change (Prim2SF 0) with (S754_zero false).
    destruct (Prim2SF e) as [s | s | | s m ex]; simpl; try destruct s; auto.
  - change (Prim2SF (-0)) with (S754_zero true).
    destruct (Prim2SF e) as [s | s | | s m ex]; simpl; try destruct s; auto.
Qed.

(** *** The sample exponential meets the assumptions *)

Lemma square_n_S (n : nat) (p : float) :
  square_n (S n) p = square_n n p * square_n n p.
Proof. reflexivity. Qed.

Lemma exp_sample_spec : exp_spec exp_sample.
Proof.
  split; intros x; unfold exp_sample.
  - intros ->. reflexivity.
  - intros ->. reflexivity.
  - intros ->. reflexivity.
  - destruct (region_of x); try reflexivity.
    cbv zeta. rewrite square_n_S. apply square_nonneg.
Qed.

(** *** Unfolding a call *)

Lemma calculate_shelf_life64_returns (np_exp : float -> float)
    (Ea A T T_ref : float) :
  (R_gas64 * T_ref =? 0) = false -> (R_gas64 * T =? 0) = false ->
  calculate_shelf_life64 np_exp Ea A T T_ref
  = Returned (0.105 / (A * np_exp (- Ea * 1000 / (R_gas64 * T_ref)))
              * (A * np_exp (- Ea * 1000 / (R_gas64 * T_ref))
                 / (A * np_exp (- Ea * 1000 / (R_gas64 * T))))
              * (DAY_TO_SECONDS64 / 86400)).
Proof.
  intros Hr Ht. unfold calculate_shelf_life64, py_truediv64.
  rewrite Hr. simpl. rewrite Ht. reflexivity.
Qed.

Lemma calculate_shelf_life64_inv (np_exp : float -> float)
    (Ea A T T_ref v : float) :
  calculate_shelf_life64 np_exp Ea A T T_ref = Returned v ->
  v = 0.105 / (A * np_exp (- Ea * 1000 / (R_gas64 * T_ref)))
      * (A * np_exp (- Ea * 1000 / (R_gas64 * T_ref))
         / (A * np_exp (- Ea * 1000 / (R_gas64 * T))))
      * (DAY_TO_SECONDS64 / 86400).
Proof.
  unfold calculate_shelf_life64, py_truediv64.
  destruct (R_gas64 * T_ref =? 0); simpl; [discriminate |].
  destruct (R_gas64 * T =? 0); simpl; [discriminate |].
  intros H. injection H as <-. reflexivity.
Qed.

(** *** Calls that only meet the ends of the exponential's range *)

Section AnyExp.

Variable np_exp : float -> float.
Hypothesis np_exp_spec : exp_spec np_exp.

(** A barrier of [1e-20] kJ/mol: the exponent is about [-4e-21], the
    exponential is one, and 273 K and 323 K give the same [0.105]. *)
Lemma tiny_barrier_273_323 :
  calculate_shelf_life64 np_exp 1e-20 1 273 298 = Returned 0.105
  /\ calculate_shelf_life64 np_exp 1e-20 1 323 298 = Returned 0.105.
Proof.
  split; rewrite calculate_shelf_life64_returns by reflexivity.
  - rewrite (exp_tiny _ np_exp_spec (opp 1e-20 * 1000 / (R_gas64 * 298)) eq_refl).
    rewrite (exp_tiny _ np_exp_spec (opp 1e-20 * 1000 / (R_gas64 * 273)) eq_refl).
    reflexivity.
  - rewrite (exp_tiny _ np_exp_spec (opp 1e-20 * 1000 / (R_gas64 * 298)) eq_refl).
    rewrite (exp_tiny _ np_exp_spec (opp 1e-20 * 1000 / (R_gas64 * 323)) eq_refl).
    reflexivity.
Qed.

(** At 298 K the barriers [0] and [1e-20] kJ/mol give the same [0.105]. *)
Lemma barriers_0_and_tiny :
  calculate_shelf_life64 np_exp 0 1 298 298 = Returned 0.105
  /\ calculate_shelf_life64 np_exp 1e-20 1 298 298 = Returned 0.105.
Proof.
  split; rewrite calculate_shelf_life64_returns by reflexivity.
  - rewrite (exp_tiny _ np_exp_spec (opp 0 * 1000 / (R_gas64 * 298)) eq_refl).
    reflexivity.
  - rewrite (exp_tiny _ np_exp_spec (opp 1e-20 * 1000 / (R_gas64 * 298)) eq_refl).
    reflexivity.
Qed.

(** Barriers of 5000 and 6000 kJ/mol at 298 K: both exponentials
    underflow, both rate constants are zero, the result is NaN. *)
Lemma barriers_5000_and_6000 :
  calculate_shelf_life64 np_exp 5000 1 298 298 = Returned nan
  /\ calculate_shelf_life64 np_exp 6000 1 298 298 = Returned nan.
Proof.
  split; rewrite calculate_shelf_life64_returns by reflexivity.
  - rewrite (exp_underflow _ np_exp_spec (opp 5000 * 1000 / (R_gas64 * 298)) eq_refl).
    reflexivity.
  - rewrite (exp_underflow _ np_exp_spec (opp 6000 * 1000 / (R_gas64 * 298)) eq_refl).
    reflexivity.
Qed.

(** Aspirin's parameters with a reference temperature of 10 K: at 5 K and
    at 10 K every exponential underflows and the result is NaN. *)
Lemma aspirin_cold_5_10 :
  calculate_shelf_life64 np_exp 85.2 1.15e12 5 10 = Returned nan
  /\ calculate_shelf_life64 np_exp 85.2 1.15e12 10 10 = Returned nan.
Proof.
  split; rewrite calculate_shelf_life64_returns by reflexivity.
  - rewrite (exp_underflow _ np_exp_spec (opp 85.2 * 1000 / (R_gas64 * 10)) eq_refl).
    rewrite (exp_underflow _ np_exp_spec (opp 85.2 * 1000 / (R_gas64 * 5)) eq_refl).
    reflexivity.
  - rewrite (exp_underflow _ np_exp_spec (opp 85.2 * 1000 / (R_gas64 * 10)) eq_refl).
    reflexivity.
Qed.

(** With a frequency factor whose sign bit is clear, a returned value is
    never negative. *)
Lemma returned_nonneg (Ea A T T_ref v : float) :
  nonneg_or_nan A = true ->
  calculate_shelf_life64 np_exp Ea A T T_ref = Returned v ->
  nonneg_or_nan v = true.
Proof.
  intros HA Hv. apply calculate_shelf_life64_inv in Hv. subst v.
  pose proof (exp_nonneg _ np_exp_spec) as He.
  repeat first [apply mul_nonneg | apply div_nonneg];
    try reflexivity; try assumption; apply He.
Qed.

(** With a zero frequency factor a returned value is NaN. *)
Lemma returned_nan_of_zero (Ea z T T_ref v : float) :
  z = 0 \/ z = -0 ->
  calculate_shelf_life64 np_exp Ea z T T_ref = Returned v -> v = nan.
Proof.
  intros Hz Hv. apply calculate_shelf_life64_inv in Hv. subst v.
  destruct (zero_mul z (np_exp (- Ea * 1000 / (R_gas64 * T_ref))) Hz)
    as [-> | [-> | ->]];
  destruct (zero_mul z (np_exp (- Ea * 1000 / (R_gas64 * T))) Hz)
    as [-> | [-> | ->]]; reflexivity.
Qed.

End AnyExp.

(** *** The monotonicity and positivity claims on the running code *)







(** X10: with a zero frequency factor, [0.0] or [-0.0], a value returned
    by the calculator is NaN, whatever [np.exp] yields: both rate constants
    are zeros or NaN, so [0.105 / k_ref] is infinite or NaN and
    [k_ref / k] is NaN. *)
Theorem shelf_life64_zero_frequency_factor (np_exp : float -> float)
    (Ea T T_ref v : float) :
  (calculate_shelf_life64 np_exp Ea 0 T T_ref = Returned v -> v = nan)
  /\ (calculate_shelf_life64 np_exp Ea (-0) T T_ref = Returned v -> v = nan).
Proof.
  split; apply returned_nan_of_zero; auto.
Qed.

End Binary64Props.
